(** * gut-sync: the session of [gut/shell.py]

    A shallow embedding of the functions of [src/gut/shell.py] that the
    program runs or exports: the tail-hash query, the destination guard,
    [init_context], [SyncContext.make_conn] and [SyncContext.make], the
    parsing of the [remote] argument in [main_coroutine], and [sync] up
    to the [return] of line 202, which ends it. The statements of [sync]
    after that [return] are never run and are not embedded. *)

From Stdlib Require Import String Ascii List Bool ZArith.
From stdpp Require Import base option list strings.

Local Open Scope string_scope.
Local Open Scope Z_scope.
Local Open Scope list_scope.

(** * Part I: the embedding *)

(** ** Python string operations used by [shell.py] *)

Module PyStr.

(** [str.isspace] on the ASCII range: TAB, LF, VT, FF, CR, the four
    separators FS..US, and the blank. *)
Definition is_space (c : ascii) : bool :=
  let n := nat_of_ascii c in
  ((9 <=? n)%nat && (n <=? 13)%nat) || ((28 <=? n)%nat && (n <=? 32)%nat).

Fixpoint lstrip (s : string) : string :=
  match s with
  | EmptyString => EmptyString
  | String c s' => if is_space c then lstrip s' else s
  end.

Fixpoint rstrip (s : string) : string :=
  match s with
  | EmptyString => EmptyString
  | String c s' =>
      match rstrip s' with
      | EmptyString => if is_space c then EmptyString else String c EmptyString
      | r => String c r
      end
  end.

(** [s.strip()] *)
Definition strip (s : string) : string := rstrip (lstrip s).

(** [s.rpartition(sep)] for a one-character separator: the part before
    the last separator, the separator, the part after it; when the
    separator does not occur, two empty strings and [s]. *)
Fixpoint rpartition (sep : ascii) (s : string) : string * string * string :=
  match s with
  | EmptyString => (EmptyString, EmptyString, EmptyString)
  | String c s' =>
      match rpartition sep s' with
      | (h, EmptyString, t) =>
          if Ascii.eqb c sep then (EmptyString, String sep EmptyString, t)
          else (EmptyString, EmptyString, String c t)
      | (h, m, t) => (String c h, m, t)
      end
  end.

End PyStr.

(** ** Nodes, backend operations and the effect monad *)

(** A machine of [plumbum] after [init_context]: the attributes that
    [get_tail_hash] and [assert_folder_empty] read of their [context],
    and that name the machine in a call. *)
Record Context := mkContext {
  _name_ansi : string;
  _sync_path : string;
  _is_windows : bool
}.

(** What [path.exists()], [path.isdir()] and [path.list()] observe. *)
Inductive PathState :=
| Absent
| NotADir
| Dir (entries : list string).

Definition path_exists (st : PathState) : bool :=
  match st with Absent => false | _ => true end.
Definition path_isdir (st : PathState) : bool :=
  match st with Dir _ => true | _ => false end.
Definition path_list (st : PathState) : list string :=
  match st with Dir es => es | _ => [] end.

(** The calls that the text of [shell.py] makes into [gut_cmd], [util],
    the file system and the terminal. A run is recorded as the list of
    the calls it made, in the order it made them. *)
Inductive Op :=
| MakeContext (context : Context)
| RunCommand (context : Context) (command : string)
| EnsureBuild (context : Context)
| StartSshTunnel (bind_port connect_port monitor_port : Z)
| WatchForChanges (context : Context) (path system : string)
| Daemon (context : Context) (path : string) (tail_hash : option string) (bind_port : Z)
| Init (context : Context) (path : string)
| EnsureInitialCommit (context : Context) (path : string)
| SetupOrigin (context : Context) (path : string) (tail_hash : option string) (connect_port : Z)
| Pull (context : Context) (path : string)
| Commit (context : Context) (path prefix : string) (update_untracked : bool)
| RevList (context : Context) (path : string)
| MarkerProbe (context : Context) (path : string)
| PathProbe (context : Context) (path : string)
| Sleep (seconds : Z)
| StatusOut (msg : string)
| PrintExc
| Shutdown.

Inductive Exn :=
| ProcessExecutionError
| SystemExit
| ValueError
| OtherError (name : string).

Inductive Res (A : Type) :=
| Ok (a : A)
| Raise (e : Exn).
Arguments Ok {A} a.
Arguments Raise {A} e.

Abbreviation Log := (list Op).

(** The world outside [shell.py]: the [gut_cmd], [util] and file system
    calls answer as a function of everything done so far. *)
Record Backend := mkBackend {
  exec : Log -> Op -> Res unit;
  exec_commit : Log -> Context -> string -> string -> bool -> Res bool;
  rev_list : Log -> Context -> string -> Z * string;
  has_marker : Log -> Context -> string -> bool;
  path_state : Log -> Context -> string -> PathState
}.

(** A computation reads the history of the calls made before it, and
    returns a value or raises, together with the calls it made itself, in
    order. *)
Definition M (A : Type) : Type := Log -> Res A * Log.

Definition ret {A} (a : A) : M A := fun _ => (Ok a, []).
Definition raise {A} (e : Exn) : M A := fun _ => (Raise e, []).
Definition bind {A B} (m : M A) (k : A -> M B) : M B :=
  fun history =>
    match m history with
    | (Ok a, trace) =>
        let '(r, trace') := k a (history ++ trace) in (r, trace ++ trace')
    | (Raise e, trace) => (Raise e, trace)
    end.

Global Instance M_ret : MRet M := @ret.
Global Instance M_bind : MBind M := fun A B k m => bind m k.

Definition emit (op : Op) : M unit := fun _ => (Ok tt, [op]).

Definition nl : string := String "010"%char EmptyString.

(** Python truth value of a [str]-or-[None]. *)
Definition truthy (h : option string) : bool :=
  match h with
  | Some (String _ _) => true
  | _ => false
  end.

Section Calls.

Variable be : Backend.

(** The rendering of [context.path(p)] in a message; it lives outside
    [shell.py]. *)
Variable path_str : Context -> string -> string.

(** A call into [gut_cmd] or [util] that returns nothing of interest. *)
Definition call (op : Op) : M unit :=
  fun history => (exec be history op, [op]).

(** [(path / '.gut').exists()] *)
Definition probe_marker (context : Context) (sync_path : string) : M bool :=
  fun history =>
    (Ok (has_marker be history context sync_path), [MarkerProbe context sync_path]).

(** [gut(context)['rev-list', '--max-parents=0', 'HEAD'](retcode=None)]:
    the standard output, whatever the exit code. *)
Definition query_rev_list (context : Context) (sync_path : string) : M string :=
  fun history =>
    (Ok (rev_list be history context sync_path).2, [RevList context sync_path]).

(** [path.exists()], [path.isdir()] and [path.list()] of one guard see
    one state of the path. *)
Definition probe_path (context : Context) (_path : string) : M PathState :=
  fun history =>
    (Ok (path_state be history context _path), [PathProbe context _path]).

Definition status_out (msg : string) : M unit := emit (StatusOut msg).

(** Modelled from the spec: [terminal.shutdown], which is not part of
    [shell.py]; with its default argument it ends the whole process,
    here by raising [SystemExit] as [main] expects. *)
Definition shutdown : M unit := emit Shutdown ;; raise SystemExit.

(** [get_tail_hash], lines 46-55. *)
Definition get_tail_hash (context : Context) (sync_path : string)
    : M (option string) :=
  marker ← probe_marker context sync_path;
  if (marker : bool) then
    out ← query_rev_list context sync_path;
    match PyStr.strip out with
    | EmptyString => mret None
    | hash => mret (Some hash)
    end
  else mret None.

(** [assert_folder_empty], lines 57-64. *)
Definition assert_folder_empty (context : Context) (_path : string) : M unit :=
  path ← probe_path context _path;
  if path_exists path
     && (negb (path_isdir path) || (0 <? length (path_list path))%nat)
  then
    status_out ("(@error)Refusing to initialize (@path)"
                +:+ path_str context _path +:+ " (@error) on "
                +:+ _name_ansi context) ;;
    status_out ("(@error)as it is not an empty directory. Move or delete it manually first."
                +:+ nl) ;;
    shutdown
  else mret tt.

End Calls.

(** ** The ends of a string, and membership of a character *)

Definition first_char (s : string) : option ascii :=
  match s with
  | EmptyString => None
  | String c _ => Some c
  end.

Fixpoint last_char (s : string) : option ascii :=
  match s with
  | EmptyString => None
  | String c EmptyString => Some c
  | String _ s' => last_char s'
  end.

(** [c in s] for a character. *)
Fixpoint contains (c : ascii) (s : string) : bool :=
  match s with
  | EmptyString => false
  | String d s' => Ascii.eqb d c || contains c s'
  end.

(** ** The command line and the contexts *)

(** [s.split(sep, 1)] for a one-character separator: the string itself,
    or what is before and what is after the first separator. *)
Fixpoint split_once (sep : ascii) (s : string) : list string :=
  match s with
  | EmptyString => [EmptyString]
  | String c s' =>
      if Ascii.eqb c sep then [EmptyString; s']
      else match split_once sep s' with
           | w :: rest => String c w :: rest
           | [] => [String c EmptyString]
           end
  end.

(** [s.rsplit(sep, maxsplit)] for a one-character separator. *)
Fixpoint rsplit (sep : ascii) (maxsplit : nat) (s : string) : list string :=
  match maxsplit with
  | O => [s]
  | S n =>
      match PyStr.rpartition sep s with
      | (_, EmptyString, _) => [s]
      | (h, _, t) => rsplit sep n h ++ [t]
      end
  end.

(** Lines 401-407 of [main_coroutine]: what [sync] is given for the
    argument [remote]. [parser.error] leaves by [SystemExit]; a tuple
    assignment from a list of the wrong length raises [ValueError]. *)
Definition parse_remote (remote : string)
    : Res (option string * string * string) :=
  if negb (contains ":" remote) then Raise SystemExit
  else
    match split_once ":" remote with
    | [remote_addr; remote_path] =>
        if contains "@" remote_addr then
          match rsplit "@" 2 remote_addr with
          | [remote_user; remote_host] =>
              Ok (Some remote_user, remote_host, remote_path)
          | _ => Raise ValueError
          end
        else Ok (None, remote_addr, remote_path)
    | _ => Raise ValueError
    end.

(** The attributes [init_context] gives a context, and what it leaves in
    the environment of the context: the value of [PATH] and the entries
    appended through [env.path]. *)
Module Attr.
Record t := mk {
  _name : string;
  _name_ansi : string;
  _is_local : bool;
  _is_osx : bool;
  _is_linux : bool;
  _is_windows : bool;
  _ssh_address : string;
  _sync_path : string;
  env_PATH : string;
  env_path_appended : list string
}.
End Attr.

Section InitContext.

(** [terminal.color_host_path], as a function of all that the
    attributes set before it is called depend on ([uname], [host]) and
    of the path, and [context.path(config.INOTIFY_WIN_PATH)]. *)
Variable color_host_path : string -> option string -> option string -> string.
Variable inotify_win_path : string.

(** [init_context], lines 66-79, for a context with the given [uname]
    and [PATH]. *)
Definition init_context (uname env_PATH : string)
    (sync_path host user : option string) : Attr.t :=
  let _name := if truthy host then default EmptyString host else "localhost" in
  let _name_ansi := "(@host)" +:+ _name +:+ "(@r)" in
  let _is_local := negb (truthy host) in
  let _is_osx := String.eqb uname "Darwin" in
  let _is_linux := String.eqb uname "Linux" in
  let _is_windows := String.eqb uname "Windows" in
  let _ssh_address :=
    if truthy host
    then (if truthy user then default EmptyString user +:+ "@" else EmptyString)
         +:+ default EmptyString host
    else EmptyString in
  let _sync_path := color_host_path uname host sync_path in
  let env_PATH1 :=
    if _is_osx then env_PATH +:+ ":/usr/local/bin" else env_PATH in
  let appended := if _is_windows then [inotify_win_path] else [] in
  Attr.mk _name _name_ansi _is_local _is_osx _is_linux _is_windows
    _ssh_address _sync_path env_PATH1 appended.

(** The part of the attributes by which a machine is named in a call,
    and which [get_tail_hash] and [assert_folder_empty] read. *)
Definition context_of (a : Attr.t) : Context :=
  mkContext (Attr._name_ansi a) (Attr._sync_path a) (Attr._is_windows a).

End InitContext.

(** The machines [SyncContext.make_conn] can return. *)
Inductive Conn :=
| LocalMachine
| SshMachine (host : string) (user keyfile : option string)
| ParamikoMachine (host : string) (user keyfile : option string)
| AsyncSshMachine (host : string) (user keyfile : option string).

Section MakeConn.

Variable color_host_path : string -> option string -> option string -> string.
Variable inotify_win_path : string.

(** What a machine reports as [uname], what its [PATH] is, and whether
    making it (and, for [asyncssh], its [init]) raises. *)
Variable uname_of : Conn -> string.
Variable PATH_of : Conn -> string.
Variable connect : Conn -> Res unit.

(** [SyncContext.make_conn], lines 156-182, for a value of the class
    attribute [REMOTE_CONN]; with a host and an unknown [REMOTE_CONN]
    the name [conn] is unbound at line 181. *)
Definition make_conn (REMOTE_CONN : string) (path host user keyfile : option string)
    : Res (Conn * Attr.t) :=
  let made (conn : Conn) :=
    match connect conn with
    | Ok _ =>
        Ok (conn,
            init_context color_host_path inotify_win_path
              (uname_of conn) (PATH_of conn) path host user)
    | Raise e => Raise e
    end in
  if negb (truthy host) then
    Ok (LocalMachine,
        init_context color_host_path inotify_win_path
          (uname_of LocalMachine) (PATH_of LocalMachine) path host user)
  else if String.eqb REMOTE_CONN "openssl" then
    made (SshMachine (default EmptyString host) user keyfile)
  else if String.eqb REMOTE_CONN "paramiko" then
    made (ParamikoMachine (default EmptyString host) user keyfile)
  else if String.eqb REMOTE_CONN "asyncssh" then
    made (AsyncSshMachine (default EmptyString host) user keyfile)
  else Raise (OtherError "UnboundLocalError").

End MakeConn.

(** ** The session *)

(** A [SyncContext] after [init]: the four arguments of the constructor
    (lines 139-143) and [conn], the machine [make_conn] returned together
    with the attributes [init_context] set on it. *)
Module SyncContext.
Record t := mk {
  host : option string;
  user : option string;
  path : option string;
  keyfile : option string;
  conn : Conn * Attr.t
}.
End SyncContext.

Section Sync.

Variable be : Backend.
Variable color_host_path : string -> option string -> option string -> string.
Variable inotify_win_path : string.
Variable uname_of : Conn -> string.
Variable PATH_of : Conn -> string.
Variable connect : Conn -> Res unit.

(** The class attribute [SyncContext.REMOTE_CONN] at the time of the
    call. *)
Variable REMOTE_CONN : string.

(** [SyncContext.make], lines 145-154: the object is built, [init]
    waits for [make_conn] and keeps the machine. A machine that was made
    is recorded by the context it stands for. *)
Definition make (path host user keyfile : option string) : M SyncContext.t :=
  fun _ =>
    match make_conn color_host_path inotify_win_path uname_of PATH_of connect
            REMOTE_CONN path host user keyfile with
    | Ok conn =>
        (Ok (SyncContext.mk host user path keyfile conn),
         [MakeContext (context_of conn.2)])
    | Raise e => (Raise e, [])
    end.

(** [sync], lines 186-202. [Writer(local.conn, 'gut-sync')] builds an
    object and calls nothing; the [return] of line 202 ends the
    coroutine. *)
Definition sync (local_path : string) (remote_user : option string)
    (remote_host remote_path : string) (keyfile : option string) : M unit :=
  local ← make (Some local_path) None None None;
  remote ← make (Some remote_path) (Some remote_host) remote_user keyfile;
  call be (RunCommand (context_of (SyncContext.conn remote).2) "pwd") ;;
  mret tt.

End Sync.

(** ** Notions the statements use *)

Definition hash_eqb (a b : option string) : bool := bool_decide (a = b).

(** What the query makes of the marker test and of the standard output. *)
Definition tail_of_output (marker : bool) (output : string) : option string :=
  if marker && negb (String.eqb (PyStr.strip output) EmptyString)
  then Some (PyStr.strip output)
  else None.

(** The query as the design words it: the output itself when the marker
    exists, the query has not failed and has printed something, and none
    in every other case. *)
Definition claimed_tail_hash (marker : bool) (retcode : Z) (output : string)
    : option string :=
  if marker && (retcode =? 0) && negb (String.eqb output EmptyString)
  then Some output
  else None.



(** How two nodes are related, by the table of the design. *)
Inductive Relation :=
| Compatible
| AdoptRemoteFromLocal
| AdoptLocalFromRemote
| InitializeBoth
| Incompatible.

(** The table itself, row by row, on the two tail hashes alone. *)
Definition decision_table (local_tail_hash remote_tail_hash : option string)
    : Relation :=
  match truthy local_tail_hash, truthy remote_tail_hash with
  | true, true =>
      if hash_eqb local_tail_hash remote_tail_hash then Compatible
      else Incompatible
  | true, false => AdoptRemoteFromLocal
  | false, true => AdoptLocalFromRemote
  | false, false => InitializeBoth
  end.


(** The two kinds of call [sync] makes before it returns: a context is
    made, a command is run. *)
Definition is_setup (op : Op) : bool :=
  match op with
  | MakeContext _ | RunCommand _ _ => true
  | _ => false
  end.

Definition is_commit (op : Op) : bool :=
  match op with
  | Commit _ _ _ _ => true
  | _ => false
  end.

Definition is_pull (op : Op) : bool :=
  match op with
  | Pull _ _ => true
  | _ => false
  end.

(** ** Nodes, backends and runs for the examples *)

Definition posix_context : Context := mkContext "(@host)localhost(@r)" "~/work" false.

(** A backend for examples: every call answers [Ok] except the pulls and
    the commits, which answer as given; the marker, the query output and
    the state of a path depend on the node. *)
Definition sample_backend (commit_answer : Res bool) (pull_answer : Res unit)
    (marker : Context -> bool) (output : Context -> string)
    (state : Context -> PathState) : Backend :=
  mkBackend
    (fun _ op => match op with Pull _ _ => pull_answer | _ => Ok tt end)
    (fun _ _ _ _ _ => commit_answer)
    (fun _ context _ => (0, output context))
    (fun _ context _ => marker context)
    (fun _ context _ => state context).

Definition adoption_backend : Backend :=
  sample_backend (Ok true) (Ok tt) (fun c => negb (_is_windows c))
    (fun _ => "a1b2c3" +:+ nl) (fun _ => Dir []).

(** A query that fails after it has printed a commit: exit code 128,
    standard output [a1b2c3] and a line feed. *)
Definition failing_query_backend : Backend :=
  mkBackend (fun _ _ => Ok tt) (fun _ _ _ _ _ => Ok true)
    (fun _ _ _ => (128, "a1b2c3" +:+ nl)) (fun _ _ _ => true)
    (fun _ _ _ => Absent).

(** A [color_host_path] without colours, for sample runs. *)
Definition plain_color (uname : string) (host sync_path : option string) : string :=
  default EmptyString sync_path.

(** The two machines of the sample session, as [init_context] names
    them: this one and the host [box]. *)
Definition here : Context := mkContext "(@host)localhost(@r)" "/home/me/work" false.

Definition box : Context := mkContext "(@host)box(@r)" "/srv/work" false.

Definition on_box (context : Context) : bool :=
  String.eqb (_name_ansi context) "(@host)box(@r)".

(** The sample session, [sync('/home/me/work', 'me', 'box', '/srv/work')]
    between two Linux machines, the connection to [box] made without
    error. *)
Definition sample_sync (be : Backend) : Res unit * Log :=
  sync be plain_color "inotify" (fun _ => "Linux") (fun _ => "/usr/bin")
    (fun _ => Ok tt) "asyncssh" "/home/me/work" (Some "me") "box" "/srv/work"
    None [].

(** All that the sample session calls. *)
Definition sample_sync_run : Log :=
  [MakeContext here; MakeContext box; RunCommand box "pwd"].

(** Both sides hold a repository, with different first commits. *)
Definition diverged_backend : Backend :=
  sample_backend (Ok true) (Ok tt) (fun _ => true)
    (fun c => (if on_box c then "d4e5f6" else "a1b2c3") +:+ nl)
    (fun _ => Dir [".gut"; "notes.txt"]).




(** Nothing fails and no repository exists yet. *)
Definition obliging_backend : Backend :=
  sample_backend (Ok true) (Ok tt) (fun _ => false) (fun _ => EmptyString)
    (fun _ => Absent).

(** * Part II: facts and claims *)

Example strip_ex : PyStr.strip (" ab c" +:+ nl) = "ab c".
Proof. reflexivity. Qed.

Example rpartition_ex : PyStr.rpartition "/" "a/b/c" = ("a/b", "/", "c").
Proof. reflexivity. Qed.

Module PyStrFacts.
Import PyStr.

Lemma append_cons a (s t : string) : String a s +:+ t = String a (s +:+ t).
Proof. reflexivity. Qed.

Lemma append_assoc (a b c : string) : (a +:+ b) +:+ c = a +:+ (b +:+ c).
Proof.
  induction a as [|x a IH]; [reflexivity|].
  rewrite !append_cons, IH. reflexivity.
Qed.

End PyStrFacts.

(** Unfold a computation down to the answers of the backend. *)
Ltac run_unfold :=
  cbv beta iota zeta delta
    [get_tail_hash assert_folder_empty sync make
     probe_marker query_rev_list probe_path status_out shutdown
     call emit mbind M_bind bind mret M_ret ret raise];
  cbn [fst snd app].

(** ** The tail-hash query *)

(** The value and the calls of one query, whatever the backend does. *)
Lemma get_tail_hash_run (be : Backend) (context : Context)
    (sync_path : string) (history : Log) :
  let marker := has_marker be history context sync_path in
  let output :=
    (rev_list be (history ++ [MarkerProbe context sync_path]) context sync_path).2 in
  get_tail_hash be context sync_path history
  = (Ok (tail_of_output marker output),
     MarkerProbe context sync_path
     :: (if marker then [RevList context sync_path] else [])).
Proof.
  intros marker output. unfold tail_of_output. run_unfold.
  fold marker. destruct marker; [|reflexivity].
  fold output. destruct (PyStr.strip output) as [|c rest]; reflexivity.
Qed.

(** C8, as amended. [get_tail_hash] never raises; its value is the output
    of the parentless-commit query with the white space at both ends
    removed when the marker exists and something is left of the output,
    whatever the exit code of the query, and [None] in every other case;
    a value that is present is never the empty string, and an absent
    value on either side leads the bootstrap decision to an adoption or
    to the initialisation of both sides, never to the fatal row. *)
Theorem get_tail_hash_stripped (be : Backend) (context : Context)
    (sync_path : string) (history : Log) :
  let marker := has_marker be history context sync_path in
  let output :=
    (rev_list be (history ++ [MarkerProbe context sync_path]) context sync_path).2 in
  (get_tail_hash be context sync_path history).1
    = Ok (tail_of_output marker output)
  /\ tail_of_output marker output
     = (if marker && negb (String.eqb (PyStr.strip output) EmptyString)
        then Some (PyStr.strip output) else None)
  /\ truthy (tail_of_output marker output)
     = marker && negb (String.eqb (PyStr.strip output) EmptyString)
  /\ (forall remote_tail_hash,
        decision_table None remote_tail_hash
        = if truthy remote_tail_hash then AdoptLocalFromRemote
          else InitializeBoth)
  /\ (forall local_tail_hash,
        decision_table local_tail_hash None
        = if truthy local_tail_hash then AdoptRemoteFromLocal
          else InitializeBoth).
Proof.
  intros marker output. rewrite get_tail_hash_run. fold marker output.
  split; [reflexivity|]. split; [reflexivity|]. split; [|split].
  - unfold tail_of_output.
    destruct marker; [|reflexivity].
    destruct (PyStr.strip output) as [|c rest]; reflexivity.
  - intros r. unfold decision_table. cbn [truthy].
    destruct (truthy r); reflexivity.
  - intros l. unfold decision_table. cbn [truthy].
    destruct (truthy l); reflexivity.
Qed.

(** The claim as written fails in three ways, each on a repository whose
    marker exists. The output of a query ends in a line feed, and the
    value is that output without it, not the output. An output of one
    line feed is not empty, and the value is [None]. A query that fails
    with exit code 128 after printing a commit gives that commit, not
    [None]: the exit code is not looked at. *)
Lemma get_tail_hash_raw_output_counterexample :
  (let be := adoption_backend in
   let answer := rev_list be [MarkerProbe posix_context "repo"] posix_context "repo" in
   has_marker be [] posix_context "repo" = true
   /\ answer = (0, "a1b2c3" +:+ nl)
   /\ claimed_tail_hash true answer.1 answer.2 = Some ("a1b2c3" +:+ nl)
   /\ (get_tail_hash be posix_context "repo" []).1 = Ok (Some "a1b2c3")
   /\ (get_tail_hash be posix_context "repo" []).1
      <> Ok (claimed_tail_hash true answer.1 answer.2))
  /\ (let be := sample_backend (Ok true) (Ok tt) (fun _ => true) (fun _ => nl)
                  (fun _ => Absent) in
      let answer := rev_list be [MarkerProbe posix_context "repo"] posix_context "repo" in
      has_marker be [] posix_context "repo" = true
      /\ answer = (0, nl)
      /\ claimed_tail_hash true answer.1 answer.2 = Some nl
      /\ (get_tail_hash be posix_context "repo" []).1 = Ok None
      /\ (get_tail_hash be posix_context "repo" []).1
         <> Ok (claimed_tail_hash true answer.1 answer.2))
  /\ (let be := failing_query_backend in
      let answer := rev_list be [MarkerProbe posix_context "repo"] posix_context "repo" in
      has_marker be [] posix_context "repo" = true
      /\ answer = (128, "a1b2c3" +:+ nl)
      /\ claimed_tail_hash true answer.1 answer.2 = None
      /\ (get_tail_hash be posix_context "repo" []).1 = Ok (Some "a1b2c3")
      /\ (get_tail_hash be posix_context "repo" []).1
         <> Ok (claimed_tail_hash true answer.1 answer.2)).
Proof. vm_compute. repeat split; congruence. Qed.

Example get_tail_hash_blank_output :
  let be := sample_backend (Ok true) (Ok tt) (fun _ => true)
              (fun _ => " " +:+ nl) (fun _ => Absent) in
  (get_tail_hash be posix_context "repo" []).1 = Ok None.
Proof. reflexivity. Qed.

Example get_tail_hash_no_marker :
  let be := sample_backend (Ok true) (Ok tt) (fun _ => false)
              (fun _ => "a1b2c3" +:+ nl) (fun _ => Absent) in
  get_tail_hash be posix_context "repo" []
  = (Ok None, [MarkerProbe posix_context "repo"]).
Proof. reflexivity. Qed.

(** ** The destination guard *)



(** ** The session *)

Section SyncFacts.

Variable be : Backend.
Variable color_host_path : string -> option string -> option string -> string.
Variable inotify_win_path : string.
Variable uname_of : Conn -> string.
Variable PATH_of : Conn -> string.
Variable connect : Conn -> Res unit.
Variable REMOTE_CONN : string.

Local Abbreviation run_sync :=
  (sync be color_host_path inotify_win_path uname_of PATH_of connect REMOTE_CONN).
Local Abbreviation machine :=
  (make_conn color_host_path inotify_win_path uname_of PATH_of connect
     REMOTE_CONN).

(** With no host the machine is this one, and making it cannot fail. *)
Lemma make_conn_local path user keyfile :
  machine path None user keyfile
  = Ok (LocalMachine,
        init_context color_host_path inotify_win_path (uname_of LocalMachine)
          (PATH_of LocalMachine) path None user).
Proof. reflexivity. Qed.

(** All of [sync]: the local context is made; the remote one is made or
    making it raises; [pwd] is run on the remote machine, and what it
    raises is raised; nothing follows. *)
Lemma sync_run local_path remote_user remote_host remote_path keyfile history :
  let local_conn :=
    context_of (init_context color_host_path inotify_win_path
                  (uname_of LocalMachine) (PATH_of LocalMachine)
                  (Some local_path) None None) in
  run_sync local_path remote_user remote_host remote_path keyfile history
  = match machine (Some remote_path) (Some remote_host) remote_user keyfile with
    | Raise e => (Raise e, [MakeContext local_conn])
    | Ok conn =>
        let remote_conn := context_of conn.2 in
        (match exec be ((history ++ [MakeContext local_conn])
                          ++ [MakeContext remote_conn])
                 (RunCommand remote_conn "pwd") with
         | Ok _ => Ok tt
         | Raise e => Raise e
         end,
         [MakeContext local_conn; MakeContext remote_conn;
          RunCommand remote_conn "pwd"])
    end.
Proof.
  intros local_conn. run_unfold. rewrite make_conn_local. cbn [fst snd app].
  fold local_conn.
  destruct (machine (Some remote_path) (Some remote_host) remote_user keyfile)
    as [conn|e]; cbn [fst snd app SyncContext.conn]; [|reflexivity].
  destruct (exec be _ _) as [[]|e]; reflexivity.
Qed.

(** [sync] makes contexts and runs a command, and calls nothing else. *)
Lemma sync_setup_only local_path remote_user remote_host remote_path keyfile history :
  Forall (fun op => is_setup op = true)
    (run_sync local_path remote_user remote_host remote_path keyfile history).2.
Proof.
  rewrite sync_run.
  destruct (machine (Some remote_path) (Some remote_host) remote_user keyfile)
    as [conn|e]; cbn [snd]; repeat constructor.
Qed.


(** No call of a kind that is not a set-up call passes a filter on the
    calls of [sync]. *)
Lemma sync_filter_nil (kind : Op -> bool) local_path remote_user remote_host
    remote_path keyfile history :
  (forall op, kind op = true -> is_setup op = false) ->
  List.filter kind
    (run_sync local_path remote_user remote_host remote_path keyfile history).2
  = [].
Proof.
  intros Hkind.
  pose proof (sync_setup_only local_path remote_user remote_host remote_path
                keyfile history) as Hall.
  induction Hall as [|op trace Hop _ IH]; [reflexivity|].
  cbn [List.filter]. destruct (kind op) eqn:Hk; [|exact IH].
  apply Hkind in Hk. congruence.
Qed.

End SyncFacts.

(** The sample session makes its three calls and returns, whatever the
    backend would answer to a query, a guard, a commit or a pull. *)
Lemma sample_sync_returns commit_answer pull_answer marker output state :
  sample_sync (sample_backend commit_answer pull_answer marker output state)
  = (Ok tt, sample_sync_run).
Proof. reflexivity. Qed.

(** ** What the session does not do

    [sync] ends at the [return] of line 202. The statements below settle,
    claim by claim, what a session therefore never does. *)

(** C1. The session takes no compatibility decision. Its result and its
    calls are the same whatever the backend would answer to the two
    tail-hash queries (and to the guards and the commits): only the
    answers to the calls it makes can tell two sessions apart. On two
    repositories whose first commits differ, where the table gives the
    fatal row, the sample session returns normally after its three
    calls, having shown nothing. *)
Theorem sync_takes_no_compatibility_decision :
  (forall (answers : Log -> Op -> Res unit)
          (commit1 commit2 : Log -> Context -> string -> string -> bool -> Res bool)
          (rev_list1 rev_list2 : Log -> Context -> string -> Z * string)
          (marker1 marker2 : Log -> Context -> string -> bool)
          (state1 state2 : Log -> Context -> string -> PathState)
          (color_host_path : string -> option string -> option string -> string)
          (inotify_win_path : string) (uname_of PATH_of : Conn -> string)
          (connect : Conn -> Res unit) (REMOTE_CONN local_path : string)
          (remote_user : option string) (remote_host remote_path : string)
          (keyfile : option string) (history : Log),
     sync (mkBackend answers commit1 rev_list1 marker1 state1)
       color_host_path inotify_win_path uname_of PATH_of connect REMOTE_CONN
       local_path remote_user remote_host remote_path keyfile history
     = sync (mkBackend answers commit2 rev_list2 marker2 state2)
         color_host_path inotify_win_path uname_of PATH_of connect REMOTE_CONN
         local_path remote_user remote_host remote_path keyfile history)
  /\ (get_tail_hash diverged_backend here "/home/me/work" []).1
     = Ok (Some "a1b2c3")
  /\ (get_tail_hash diverged_backend box "/srv/work" []).1
     = Ok (Some "d4e5f6")
  /\ decision_table (Some "a1b2c3") (Some "d4e5f6") = Incompatible
  /\ sample_sync diverged_backend = (Ok tt, sample_sync_run).
Proof.
  split; [|repeat split; reflexivity].
  intros. rewrite !sync_run. reflexivity.
Qed.







(** C7. The session makes no first flush: among its calls there is no
    commit and no pull, where the design asks for a commit on each side
    and then a pull on each side. *)
Theorem sync_makes_no_first_flush (be : Backend)
    (color_host_path : string -> option string -> option string -> string)
    (inotify_win_path : string) (uname_of PATH_of : Conn -> string)
    (connect : Conn -> Res unit) (REMOTE_CONN local_path : string)
    (remote_user : option string) (remote_host remote_path : string)
    (keyfile : option string) (history : Log) :
  let run :=
    sync be color_host_path inotify_win_path uname_of PATH_of connect
      REMOTE_CONN local_path remote_user remote_host remote_path keyfile
      history in
  List.filter is_commit run.2 = []
  /\ List.filter is_pull run.2 = []
  /\ sample_sync obliging_backend = (Ok tt, sample_sync_run).
Proof.
  split; [|split; [|reflexivity]];
    apply sync_filter_nil; intros [] Hk; try discriminate Hk; reflexivity.
Qed.



(** * Part III: further properties of the code *)

(** ** More facts about the string functions *)

Module PyStrMoreFacts.
Import PyStr.

Lemma lstrip_first s c : first_char (lstrip s) = Some c -> is_space c = false.
Proof.
  induction s as [|d s IH]; cbn [lstrip]; [discriminate|].
  destruct (is_space d) eqn:E; [exact IH|].
  cbn. intros [= <-]. exact E.
Qed.

Lemma rstrip_cons c s :
  rstrip (String c s)
  = match rstrip s with
    | EmptyString => if is_space c then EmptyString else String c EmptyString
    | r => String c r
    end.
Proof. reflexivity. Qed.

Lemma rstrip_first s c :
  rstrip s <> EmptyString -> first_char s = Some c ->
  first_char (rstrip s) = Some c.
Proof.
  destruct s as [|d s]; [discriminate|]. rewrite rstrip_cons.
  cbn [first_char]. intros Hne [= ->].
  destruct (rstrip s); [|reflexivity].
  destruct (is_space c); [contradiction | reflexivity].
Qed.

Lemma rstrip_last s c : last_char (rstrip s) = Some c -> is_space c = false.
Proof.
  induction s as [|d s IH]; [discriminate|]. rewrite rstrip_cons.
  destruct (rstrip s) as [|e r] eqn:E.
  - destruct (is_space d) eqn:Ed; [discriminate|].
    cbn. intros [= <-]. exact Ed.
  - cbn [last_char]. exact IH.
Qed.

Lemma lstrip_fixed s :
  (forall c, first_char s = Some c -> is_space c = false) -> lstrip s = s.
Proof.
  destruct s as [|d s]; [reflexivity|]. intros H. cbn [lstrip].
  rewrite (H d eq_refl). reflexivity.
Qed.

Lemma rstrip_idem s : rstrip (rstrip s) = rstrip s.
Proof.
  induction s as [|d s IH]; [reflexivity|]. rewrite rstrip_cons.
  destruct (rstrip s) as [|e r] eqn:E.
  - destruct (is_space d) eqn:Ed; [reflexivity|].
    rewrite rstrip_cons. cbn [rstrip]. rewrite Ed. reflexivity.
  - rewrite rstrip_cons, IH. reflexivity.
Qed.

(** What [strip] returns has no white space at either end, and [strip]
    leaves it as it is. *)
Lemma strip_ends s :
  (forall c, first_char (strip s) = Some c -> is_space c = false)
  /\ (forall c, last_char (strip s) = Some c -> is_space c = false)
  /\ strip (strip s) = strip s.
Proof.
  unfold strip.
  assert (H1 : forall c, first_char (rstrip (lstrip s)) = Some c ->
                         is_space c = false).
  { intros c Hc. apply (lstrip_first s).
    destruct (lstrip s) as [|d t] eqn:E; [discriminate|].
    assert (Hne : rstrip (String d t) <> EmptyString)
      by (intros He; rewrite He in Hc; discriminate).
    rewrite (rstrip_first _ d Hne eq_refl) in Hc. exact Hc. }
  split; [exact H1|]. split; [apply rstrip_last|].
  rewrite (lstrip_fixed _ H1). apply rstrip_idem.
Qed.

End PyStrMoreFacts.

(** X7. A tail hash that [get_tail_hash] returns is never the empty
    string and has no white space at its beginning or at its end; it is
    unchanged by another [strip]. *)
Theorem tail_hash_is_trimmed (be : Backend) (context : Context)
    (sync_path : string) (history : Log) (hash : string) :
  (get_tail_hash be context sync_path history).1 = Ok (Some hash) ->
  hash <> EmptyString
  /\ (forall c, first_char hash = Some c -> PyStr.is_space c = false)
  /\ (forall c, last_char hash = Some c -> PyStr.is_space c = false)
  /\ PyStr.strip hash = hash.
Proof.
  rewrite get_tail_hash_run. cbn [fst]. unfold tail_of_output.
  destruct (has_marker be history context sync_path); [|discriminate].
  cbn [andb].
  set (output := (rev_list be _ context sync_path).2).
  destruct (String.eqb_spec (PyStr.strip output) EmptyString) as [He|Hne];
    [discriminate|].
  cbn [negb]. intros [= <-]. split; [exact Hne|].
  apply PyStrMoreFacts.strip_ends.
Qed.

Lemma tail_hash_is_trimmed_witness :
  (get_tail_hash adoption_backend posix_context "~/work" []).1
    = Ok (Some "a1b2c3")
  /\ PyStr.strip "a1b2c3" = "a1b2c3".
Proof.
  assert (Hrun : (get_tail_hash adoption_backend posix_context "~/work" []).1
                 = Ok (Some "a1b2c3")) by reflexivity.
  split; [exact Hrun|].
  exact (proj2 (proj2 (proj2 (tail_hash_is_trimmed adoption_backend
                                posix_context "~/work" [] _ Hrun)))).
Defined.


(** ** The remote argument *)

Module RemoteFacts.
Import PyStr.

Lemma contains_app c a b : contains c (a +:+ b) = contains c a || contains c b.
Proof.
  induction a as [|d a IH]; [reflexivity|].
  rewrite PyStrFacts.append_cons. cbn [contains]. rewrite IH.
  now rewrite orb_assoc.
Qed.

Lemma contains_cons c d s : contains c (String d s) = Ascii.eqb d c || contains c s.
Proof. reflexivity. Qed.

(** [split(sep, 1)] of a string that holds the separator. *)
Lemma split_once_found sep s :
  contains sep s = true ->
  exists h t,
    split_once sep s = [h; t] /\ s = h +:+ String sep t
    /\ contains sep h = false.
Proof.
  induction s as [|c s IH]; [discriminate|].
  cbn [contains split_once].
  destruct (Ascii.eqb_spec c sep) as [->|Hne]; cbn [orb].
  - intros _. exists EmptyString, s. auto.
  - intros Hs. destruct (IH Hs) as (h & t & -> & -> & Hh).
    exists (String c h), t. repeat split.
    cbn [contains]. rewrite Hh.
    apply Ascii.eqb_neq in Hne. rewrite Hne. reflexivity.
Qed.

Lemma split_once_app sep h t :
  contains sep h = false -> split_once sep (h +:+ String sep t) = [h; t].
Proof.
  induction h as [|c h IH]; intros Hh.
  - change (EmptyString +:+ String sep t) with (String sep t).
    cbn [split_once]. rewrite Ascii.eqb_refl. reflexivity.
  - cbn [contains] in Hh. apply orb_false_elim in Hh as [Hc Hh].
    rewrite PyStrFacts.append_cons. cbn [split_once].
    rewrite Hc, (IH Hh). reflexivity.
Qed.

Lemma rpartition_cons sep c s :
  rpartition sep (String c s)
  = match rpartition sep s with
    | (h, EmptyString, t) =>
        if Ascii.eqb c sep then (EmptyString, String sep EmptyString, t)
        else (EmptyString, EmptyString, String c t)
    | (h, m, t) => (String c h, m, t)
    end.
Proof. reflexivity. Qed.

Lemma rpartition_absent sep s :
  contains sep s = false ->
  rpartition sep s = (EmptyString, EmptyString, s).
Proof.
  induction s as [|c s IH]; [reflexivity|].
  cbn [contains]. intros H. apply orb_false_elim in H as [Hc Hs].
  rewrite rpartition_cons, (IH Hs), Hc. reflexivity.
Qed.

Lemma rpartition_app sep h t :
  contains sep t = false ->
  rpartition sep (h +:+ String sep t) = (h, String sep EmptyString, t).
Proof.
  intros Ht. induction h as [|c h IH].
  - change (EmptyString +:+ String sep t) with (String sep t).
    rewrite rpartition_cons, (rpartition_absent sep t Ht), Ascii.eqb_refl.
    reflexivity.
  - rewrite PyStrFacts.append_cons, rpartition_cons, IH. reflexivity.
Qed.

Lemma rpartition_present sep s :
  contains sep s = true ->
  exists h t,
    rpartition sep s = (h, String sep EmptyString, t)
    /\ s = h +:+ String sep t /\ contains sep t = false.
Proof.
  induction s as [|c s IH]; [discriminate|].
  rewrite contains_cons, rpartition_cons.
  destruct (contains sep s) eqn:Hs.
  - intros _. destruct (IH eq_refl) as (h & t & -> & -> & Ht).
    exists (String c h), t. auto.
  - rewrite orb_false_r. intros Hc. apply Ascii.eqb_eq in Hc as ->.
    rewrite (rpartition_absent sep s Hs), Ascii.eqb_refl.
    exists EmptyString, s. auto.
Qed.

Lemma rsplit_absent sep n s : contains sep s = false -> rsplit sep n s = [s].
Proof.
  intros H. destruct n; [reflexivity|].
  cbn [rsplit]. rewrite (rpartition_absent sep s H). reflexivity.
Qed.

Lemma rsplit_length_pos sep n s : rsplit sep n s <> [].
Proof.
  destruct n; cbn [rsplit]; [discriminate|].
  destruct (rpartition sep s) as [[h [|m ms]] t]; [discriminate|].
  destruct (rsplit sep n h); discriminate.
Qed.

(** What the three results of [parse_remote] say about its argument. *)
Lemma parse_remote_cases remote :
  (contains ":" remote = false /\ parse_remote remote = Raise SystemExit)
  \/ exists addr path,
       remote = addr +:+ String ":" path /\ contains ":" addr = false
       /\ ((contains "@" addr = false
            /\ parse_remote remote = Ok (None, addr, path))
           \/ exists front host,
                addr = front +:+ String "@" host
                /\ contains "@" host = false
                /\ ((contains "@" front = false
                     /\ parse_remote remote = Ok (Some front, host, path))
                    \/ (contains "@" front = true
                        /\ parse_remote remote = Raise ValueError))).
Proof.
  unfold parse_remote.
  destruct (contains ":" remote) eqn:Hc; cbn [negb]; [right | left; auto].
  destruct (split_once_found ":" remote Hc) as (addr & path & -> & -> & Ha).
  exists addr, path. split; [reflexivity|]. split; [exact Ha|].
  destruct (contains "@" addr) eqn:Hat; [right | left; auto].
  destruct (rpartition_present "@" addr Hat) as (front & host & Hr & -> & Hh).
  exists front, host. split; [reflexivity|]. split; [exact Hh|].
  cbn [rsplit]. rewrite Hr.
  destruct (contains "@" front) eqn:Hf; [right | left]; split; try reflexivity.
  - destruct (rpartition_present "@" front Hf) as (f1 & f2 & Hr1 & _ & _).
    rewrite Hr1. reflexivity.
  - rewrite (rpartition_absent "@" front Hf). reflexivity.
Qed.

(** An accepted argument reads back from its parts. *)
Lemma parse_remote_back remote host path user :
  parse_remote remote = Ok (user, host, path) ->
  remote
  = match user with
    | Some u => u +:+ String "@" host
    | None => host
    end +:+ String ":" path
  /\ contains ":" host = false /\ contains "@" host = false
  /\ (forall u, user = Some u ->
        contains ":" u = false /\ contains "@" u = false).
Proof.
  intros Hp.
  destruct (parse_remote_cases remote)
    as [[_ He] | (addr & rest & -> & Ha & Hcases)]; [congruence|].
  destruct Hcases as [[Hat He] | (front & h & -> & Hh & Hf)].
  - rewrite He in Hp. injection Hp as <- <- <-.
    split; [reflexivity|]. split; [exact Ha|]. split; [exact Hat|].
    intros u0 Hu. discriminate Hu.
  - rewrite contains_app, contains_cons in Ha.
    apply orb_false_elim in Ha as [Haf Hah]. cbn [orb Ascii.eqb] in Hah.
    destruct Hf as [[Hf He] | [_ He]]; rewrite He in Hp; [|discriminate].
    injection Hp as <- <- <-.
    split; [reflexivity|]. split; [exact Hah|]. split; [exact Hh|].
    intros u0 [= <-]. split; [exact Haf | exact Hf].
Qed.

End RemoteFacts.

(** X10. What [sync] is given is the argument taken apart: whenever the
    argument [remote] is accepted, it reads back as user, [@], host,
    [:], path (user and [@] left out when no user came out); the host
    holds neither [@] nor [:], the user neither, and the path is all
    that follows the first colon. *)
Theorem remote_argument_reads_back (remote host path : string)
    (user : option string) :
  parse_remote remote = Ok (user, host, path) ->
  remote
  = match user with
    | Some u => u +:+ String "@" host
    | None => host
    end +:+ String ":" path
  /\ contains ":" host = false /\ contains "@" host = false
  /\ (forall u, user = Some u ->
        contains ":" u = false /\ contains "@" u = false).
Proof. apply RemoteFacts.parse_remote_back. Qed.

Lemma remote_argument_reads_back_witness :
  parse_remote "me@box:C:\work" = Ok (Some "me", "box", "C:\work")
  /\ "me@box:C:\work" = ("me" +:+ String "@" "box") +:+ String ":" "C:\work".
Proof.
  assert (H : parse_remote "me@box:C:\work" = Ok (Some "me", "box", "C:\work"))
    by reflexivity.
  split; [exact H|].
  exact (proj1 (remote_argument_reads_back _ _ _ _ H)).
Defined.

(** X11. Every argument of the form host, [:], path, or user, [@],
    host, [:], path is accepted and taken apart into just these parts,
    whatever the path holds (colons and [@] included), provided user and
    host hold neither [@] nor [:]. *)
Theorem remote_argument_accepted (user : option string) (host path : string) :
  contains ":" host = false ->
  contains "@" host = false ->
  (forall u, user = Some u -> contains ":" u = false /\ contains "@" u = false) ->
  parse_remote
    (match user with
     | Some u => u +:+ String "@" host
     | None => host
     end +:+ String ":" path)
  = Ok (user, host, path).
Proof.
  intros Hc Ha Hu. unfold parse_remote.
  set (addr := match user with Some u => u +:+ String "@" host | None => host end).
  assert (Haddr : contains ":" addr = false).
  { subst addr. destruct user as [u|]; [|exact Hc].
    destruct (Hu u eq_refl) as [Huc _].
    rewrite RemoteFacts.contains_app, RemoteFacts.contains_cons, Huc, Hc.
    reflexivity. }
  rewrite RemoteFacts.contains_app, RemoteFacts.contains_cons, Ascii.eqb_refl.
  rewrite orb_true_r. cbn [negb orb].
  rewrite (RemoteFacts.split_once_app ":" addr path Haddr).
  subst addr. destruct user as [u|].
  - destruct (Hu u eq_refl) as [_ Hua].
    rewrite RemoteFacts.contains_app, RemoteFacts.contains_cons, Ascii.eqb_refl.
    rewrite orb_true_r. cbn [orb rsplit].
    rewrite (RemoteFacts.rpartition_app "@" u host Ha).
    rewrite (RemoteFacts.rpartition_absent "@" u Hua). reflexivity.
  - rewrite Ha. reflexivity.
Qed.

Lemma remote_argument_accepted_witness :
  contains ":" "box" = false /\ contains "@" "box" = false
  /\ parse_remote (("me" +:+ String "@" "box") +:+ String ":" "a:b@c")
     = Ok (Some "me", "box", "a:b@c").
Proof.
  split; [reflexivity|]. split; [reflexivity|].
  apply (remote_argument_accepted (Some "me") "box" "a:b@c");
    [reflexivity | reflexivity |].
  intros u [= <-]. split; reflexivity.
Defined.

(** X12. The two ways the argument is refused: with no colon in it the
    parser reports an error and the process ends; with more than one
    [@] before the first colon the assignment of user and host fails
    with [ValueError]. Nothing else is refused. *)
Theorem remote_argument_refused (remote : string) :
  (contains ":" remote = false <-> parse_remote remote = Raise SystemExit)
  /\ ((exists front host path,
         remote = (front +:+ String "@" host) +:+ String ":" path
         /\ contains "@" front = true
         /\ contains ":" front = false /\ contains ":" host = false)
      <-> parse_remote remote = Raise ValueError)
  /\ (forall e, parse_remote remote = Raise e -> e = SystemExit \/ e = ValueError).
Proof.
  destruct (RemoteFacts.parse_remote_cases remote)
    as [[Hc He] | (addr & path & -> & Ha & Hcases)].
  - rewrite He. split; [tauto|]. split; [|intros e [= <-]; auto].
    split; [|discriminate].
    intros (front & host & path & -> & _ & _ & _).
    rewrite !RemoteFacts.contains_app in Hc. cbn in Hc.
    rewrite !orb_true_r in Hc. discriminate.
  - assert (Hcol : contains ":" (addr +:+ String ":" path) = true).
    { rewrite RemoteFacts.contains_app. cbn. apply orb_true_r. }
    destruct Hcases as [[Hat He] | (front & h & -> & Hh & Hf)].
    + rewrite He. split; [split; [congruence|discriminate]|].
      split; [|discriminate]. split; [|discriminate].
      intros (front & host & p & Heq & Hf & Hfc & Hhc). exfalso.
      assert (Hadd : addr = front +:+ String "@" host).
      { assert (H1 : split_once ":" (addr +:+ String ":" path) = [addr; path])
          by (apply RemoteFacts.split_once_app, Ha).
        rewrite Heq in H1.
        rewrite RemoteFacts.split_once_app in H1; [congruence|].
        rewrite RemoteFacts.contains_app, Hfc. cbn. exact Hhc. }
      rewrite Hadd, RemoteFacts.contains_app, Hf in Hat. discriminate.
    + rewrite RemoteFacts.contains_app, RemoteFacts.contains_cons in Ha.
      apply orb_false_elim in Ha as [Haf Hah]. cbn [orb Ascii.eqb] in Hah.
      destruct Hf as [[Hf He] | [Hf He]]; rewrite He.
      * split; [split; [congruence|discriminate]|].
        split; [|discriminate]. split; [|discriminate].
        intros (front' & host' & p & Heq & Hf' & Hfc & Hhc). exfalso.
        assert (H1 : split_once ":" ((front +:+ String "@" h) +:+ String ":" path)
                     = [front +:+ String "@" h; path]).
        { apply RemoteFacts.split_once_app.
          rewrite RemoteFacts.contains_app, Haf. cbn. exact Hah. }
        rewrite Heq in H1.
        rewrite RemoteFacts.split_once_app in H1.
        2: { rewrite RemoteFacts.contains_app, Hfc. cbn. exact Hhc. }
        injection H1 as H1 _.
        assert (H2 : contains "@" front'
                     = contains "@" (fst (fst (PyStr.rpartition "@"
                                                 (front' +:+ String "@" host'))))).
        { destruct (contains "@" host') eqn:Hh'.
          - destruct (RemoteFacts.rpartition_present "@" host' Hh')
              as (a & b & _ & -> & Hb).
            rewrite <- PyStrFacts.append_cons, <- PyStrFacts.append_assoc.
            rewrite (RemoteFacts.rpartition_app "@" _ b Hb). cbn [fst].
            rewrite RemoteFacts.contains_app, Hf'. reflexivity.
          - rewrite (RemoteFacts.rpartition_app "@" _ _ Hh'). reflexivity. }
        rewrite H1, (RemoteFacts.rpartition_app "@" front h Hh) in H2.
        cbn [fst] in H2. congruence.
      * split; [split; [congruence|discriminate]|].
        split; [|intros e [= <-]; auto]. split; [intros _; reflexivity|].
        intros _. exists front, h, path. auto.
Qed.

(** ** Contexts *)

Lemma append_empty_inv (a b : string) :
  a +:+ b = EmptyString -> a = EmptyString /\ b = EmptyString.
Proof. destruct a; [cbn; auto | discriminate]. Qed.

Lemma truthy_Some (h : option string) :
  truthy h = true -> exists c s, h = Some (String c s).
Proof. destruct h as [[|c s]|]; try discriminate. eauto. Qed.

(** X13. What [init_context] keeps together: a context is marked local
    exactly when its ssh address is empty, which is exactly when no host
    (or an empty one) was given, and then its name is [localhost]; the
    name is never empty; at most one of the three operating-system marks
    is set; [PATH] is touched only on OS X, where [:/usr/local/bin] is
    put at its end; and an entry is appended to the search path exactly
    on Windows. *)
Theorem init_context_attributes
    (color_host_path : string -> option string -> option string -> string)
    (inotify_win_path uname env_PATH : string)
    (sync_path host user : option string) :
  let a := init_context color_host_path inotify_win_path uname env_PATH
             sync_path host user in
  (Attr._is_local a = true <-> Attr._ssh_address a = EmptyString)
  /\ (Attr._is_local a = true <-> truthy host = false)
  /\ (Attr._is_local a = true -> Attr._name a = "localhost")
  /\ Attr._name a <> EmptyString
  /\ Attr._is_osx a && Attr._is_linux a = false
  /\ Attr._is_osx a && Attr._is_windows a = false
  /\ Attr._is_linux a && Attr._is_windows a = false
  /\ Attr.env_PATH a
     = (if Attr._is_osx a then env_PATH +:+ ":/usr/local/bin" else env_PATH)
  /\ (Attr.env_path_appended a <> [] <-> Attr._is_windows a = true).
Proof.
  cbv zeta. unfold init_context. cbn [Attr._is_local Attr._ssh_address
    Attr._name Attr._is_osx Attr._is_linux Attr._is_windows Attr.env_PATH
    Attr.env_path_appended].
  split; [|split; [|split; [|split; [|split; [|split; [|split; [|split]]]]]]].
  - destruct (truthy host) eqn:Hh; cbn [negb]; [|tauto].
    split; [discriminate|]. intros He. exfalso.
    apply append_empty_inv in He as [_ He].
    apply truthy_Some in Hh as (c & s & ->). discriminate.
  - destruct (truthy host); cbn [negb]; split; congruence.
  - destruct (truthy host); cbn [negb]; [discriminate | reflexivity].
  - destruct (truthy host) eqn:Hh; [|discriminate].
    apply truthy_Some in Hh as (c & s & ->). discriminate.
  - destruct (String.eqb_spec uname "Darwin") as [->|]; reflexivity.
  - destruct (String.eqb_spec uname "Darwin") as [->|]; reflexivity.
  - destruct (String.eqb_spec uname "Linux") as [->|]; reflexivity.
  - reflexivity.
  - destruct (String.eqb uname "Windows"); split; congruence.
Qed.

(** X14. From the command line to the context: when the argument
    [remote] is accepted with a host that is not empty, [make_conn]
    returns, if at all, a machine that is not the local one, with a
    context named after the host and not marked local, and (unless the
    user part is the empty string) the ssh address of that context
    followed by [:] and the path is the argument again. With an empty
    host, as in [:path], the machine is the local one and the context is
    marked local. *)
Theorem remote_context_of_argument
    (color_host_path : string -> option string -> option string -> string)
    (inotify_win_path : string) (uname_of PATH_of : Conn -> string)
    (connect : Conn -> Res unit) (REMOTE_CONN remote host path : string)
    (user keyfile : option string) (conn : Conn) (a : Attr.t) :
  parse_remote remote = Ok (user, host, path) ->
  make_conn color_host_path inotify_win_path uname_of PATH_of connect
    REMOTE_CONN (Some path) (Some host) user keyfile = Ok (conn, a) ->
  (host = EmptyString ->
     conn = LocalMachine /\ Attr._is_local a = true
     /\ Attr._ssh_address a = EmptyString)
  /\ (host <> EmptyString ->
        conn <> LocalMachine /\ Attr._is_local a = false
        /\ Attr._name a = host
        /\ (user <> Some EmptyString ->
            Attr._ssh_address a +:+ String ":" path = remote)).
Proof.
  intros Hp Hm.
  destruct (RemoteFacts.parse_remote_back _ _ _ _ Hp) as (Hback & _).
  unfold make_conn in Hm. destruct host as [|c h]; cbn [truthy negb] in Hm.
  - injection Hm as <- <-. split; [|congruence]. intros _. auto.
  - split; [discriminate|]. intros _.
    assert (Hmade : exists k,
              conn = k (String c h) user keyfile
              /\ (forall x y z, k x y z <> LocalMachine)
              /\ a = init_context color_host_path inotify_win_path
                       (uname_of conn) (PATH_of conn) (Some path)
                       (Some (String c h)) user).
    { cbn [default] in Hm.
      destruct (String.eqb REMOTE_CONN "openssl");
        [|destruct (String.eqb REMOTE_CONN "paramiko");
          [|destruct (String.eqb REMOTE_CONN "asyncssh"); [|discriminate]]];
        destruct (connect _) as [[]|e]; try discriminate;
        injection Hm as <- <-; eexists; (split; [reflexivity|]);
        (split; [intros; discriminate | reflexivity]). }
    destruct Hmade as (k & -> & Hk & ->).
    split; [apply Hk|]. split; [reflexivity|]. split; [reflexivity|].
    intros Hu. rewrite Hback. unfold init_context. cbn [Attr._ssh_address truthy].
    destruct user as [[|d u]|]; [congruence| |reflexivity].
    cbn [truthy default id]. f_equal. rewrite PyStrFacts.append_assoc. reflexivity.
Qed.

Lemma remote_context_of_argument_witness :
  parse_remote "me@box:work" = Ok (Some "me", "box", "work")
  /\ Attr._ssh_address
       (init_context plain_color "inotify" "Linux" "/bin" (Some "work")
          (Some "box") (Some "me")) +:+ String ":" "work"
     = "me@box:work".
Proof.
  assert (Hp : parse_remote "me@box:work" = Ok (Some "me", "box", "work"))
    by reflexivity.
  split; [exact Hp|].
  assert (Hm : make_conn plain_color "inotify" (fun _ => "Linux")
                 (fun _ => "/bin") (fun _ => Ok tt) "asyncssh"
                 (Some "work") (Some "box") (Some "me") None
               = Ok (AsyncSshMachine "box" (Some "me") None,
                     init_context plain_color "inotify" "Linux" "/bin"
                       (Some "work") (Some "box") (Some "me")))
    by reflexivity.
  refine (proj2 (proj2 (proj2 (proj2
            (remote_context_of_argument plain_color "inotify"
               (fun _ => "Linux") (fun _ => "/bin") (fun _ => Ok tt)
               "asyncssh" _ _ _ _ _ _ _ Hp Hm) _))) _);
    discriminate.
Defined.
